(** * Conversation bot: history store and dispatcher of [src/bot.py]

    The development embeds the two stateful pieces of the bot, the
    per-user conversation history (a [defaultdict(list)] keyed by the
    user id) and the [on_message] dispatcher, and proves what the
    specification says about them.

    Python values are modelled as follows.
    - [str] is [string]; a character is an [ascii], the symbol [n] standing
      for the code point [n].  Lengths, slices, [startswith], [replace] and
      [strip] are the functions of module [Py] below, written after the
      semantics of the Python methods.
    - [int] is [Z] (user ids), and [nat] where the source only counts.
    - a message dictionary with keys "role" and "content" is the record
      [message].
    - [conversation_history] is a [gmap Z (list message)]; reading a
      missing key inserts the empty list, as [defaultdict(list)] does.
      No list object of the source is reachable from two places (every
      default is a fresh list, the slice of line 85 is a fresh list and
      [extend] copies), so lists are stored by value.
    - effects are a state, writer and exception monad [M]: the state is
      the history dictionary, the log records the calls to the gateway
      and to the completion client, and [Raise] is a Python exception. *)

From stdpp Require Import gmap strings list pretty.
From Stdlib Require Import Ascii.

Local Open Scope Z_scope.
Local Open Scope nat_scope.

(** ** Python primitives *)

Module Py.

(** [s[n:]] on a string, [0 <= n]. *)
Fixpoint drop (n : nat) (s : string) : string :=
  match n, s with
  | 0, _ => s
  | S _, EmptyString => EmptyString
  | S n', String _ s' => drop n' s'
  end.

(** [s[:n]] on a string, [0 <= n]. *)
Fixpoint take (n : nat) (s : string) : string :=
  match n, s with
  | 0, _ => EmptyString
  | S _, EmptyString => EmptyString
  | S n', String c s' => String c (take n' s')
  end.

(** [s[i:j]] for non-negative [i] and [j]; both ends are clamped to the
    length and the slice is empty when [j <= i]. *)
Definition slice (i j : nat) (s : string) : string := take (j - i) (drop i s).

(** [s.startswith(p)]. *)
Fixpoint startswith (p s : string) : bool :=
  match p, s with
  | EmptyString, _ => true
  | String _ _, EmptyString => false
  | String a p', String b s' => if decide (a = b) then startswith p' s' else false
  end.

(** [c.isspace()], which is also the whitespace of [str.strip]: among the
    code points below 256 these are tab, line feed, vertical tab, form feed
    and carriage return (9..13), the four separators 28..31, the space (32),
    the next-line control U+0085 (133) and the no-break space U+00A0 (160). *)
Definition isspace (c : ascii) : bool :=
  let n := nat_of_ascii c in
  ((9 <=? n) && (n <=? 13)) || ((28 <=? n) && (n <=? 32))
  || (n =? 133) || (n =? 160).

Fixpoint lstrip (s : string) : string :=
  match s with
  | EmptyString => EmptyString
  | String c s' => if isspace c then lstrip s' else s
  end.

(** [s.rstrip()]: a suffix of whitespace is dropped from the right. *)
Fixpoint rstrip (s : string) : string :=
  match s with
  | EmptyString => EmptyString
  | String c s' =>
      match rstrip s' with
      | EmptyString => if isspace c then EmptyString else String c EmptyString
      | r => String c r
      end
  end.

(** [s.strip()]. *)
Definition strip (s : string) : string := rstrip (lstrip s).

(** [s.replace(old, new)] for a non-empty [old]: the occurrences are
    found from the left and do not overlap.  [skip] counts the characters
    of a matched occurrence that are still to be passed over. *)
Fixpoint replace_from (skip : nat) (old new s : string) : string :=
  match s with
  | EmptyString => EmptyString
  | String c s' =>
      match skip with
      | S k => replace_from k old new s'
      | 0 =>
          if startswith old s
          then new +:+ replace_from (String.length old - 1) old new s'
          else String c (replace_from 0 old new s')
      end
  end.

(** With an empty [old], Python puts [new] before every character and at
    the end. *)
Fixpoint intersperse (new s : string) : string :=
  match s with
  | EmptyString => new
  | String c s' => new +:+ String c (intersperse new s')
  end.

Definition replace (old new s : string) : string :=
  match old with
  | EmptyString => intersperse new s
  | String _ _ => replace_from 0 old new s
  end.

(** [range(start, stop, step)] for [0 < step]: its length is
    [ceil((stop - start) / step)] and its [k]-th element is
    [start + k * step]. *)
Definition range (start stop step : nat) : list nat :=
  (λ k, start + k * step) <$> seq 0 ((stop - start + (step - 1)) / step).

(** [l[-n:]] on a list, for a constant [0 <= n].  [-0] is [0], so
    [l[-0:]] is the whole list; otherwise the start is
    [max (len l - n) 0]. *)
Definition last_slice {A} (n : nat) (l : list A) : list A :=
  match n with
  | 0 => l
  | S _ => list.drop (length l - n) l
  end.

(** The characters of [s] up to its first whitespace character. *)
Fixpoint first_word (s : string) : string :=
  match s with
  | EmptyString => EmptyString
  | String c s' => if isspace c then EmptyString else String c (first_word s')
  end.

(** [enumerate(l)]. *)
Definition enumerate {A} (l : list A) : list (nat * A) := imap pair l.

(** ["".join(l)]. *)
Fixpoint join (l : list string) : string :=
  match l with
  | [] => EmptyString
  | s :: rest => s +:+ join rest
  end.

(** [s * n]. *)
Fixpoint repeat (s : string) (n : nat) : string :=
  match n with
  | 0 => EmptyString
  | S n' => s +:+ repeat s n'
  end.

(** The truth value of a [str]: non-empty. *)
Definition truthy (s : string) : bool :=
  match s with EmptyString => false | String _ _ => true end.

(** [f"{n}"] for an [int]. *)
Definition format_int (n : Z) : string := pretty n.

End Py.

(** ** Data model *)

Record message : Type := Message { role : string; content : string }.

Global Instance message_eq_dec : EqDecision message.
Proof. solve_decision. Defined.

(** What the program does to the outside world, in order. *)
Inductive event : Type :=
  | ApiCall (messages : list message)   (* openai_client.chat.completions.create *)
  | Typing                              (* message.channel.typing() *)
  | Reply (text : string)               (* message.reply / ctx.reply *)
  | ChannelSend (text : string)         (* message.channel.send *)
  | ReplyEmbed.                         (* ctx.reply(embed=embed) *)

Global Instance event_eq_dec : EqDecision event.
Proof. solve_decision. Defined.

Inductive exn : Type := IndexError.

Inductive outcome (A : Type) : Type :=
  | Return (a : A)
  | Raise (e : exn).
Global Arguments Return {A} a.
Global Arguments Raise {A} e.

(** The result of the completion client on a list of messages: the text of
    the first choice, or the exception it raised, as [str(e)]. *)
Inductive completion : Type :=
  | Completed (ai_message : string)
  | Failed (detail : string).

(** ** The effect monad *)

Definition M (A : Type) : Type :=
  gmap Z (list message) → outcome A * gmap Z (list message) * list event.

Definition ret {A} (a : A) : M A := λ h, (Return a, h, []).

Definition bind {A B} (m : M A) (f : A → M B) : M B := λ h,
  match m h with
  | (Return a, h1, t1) =>
      match f a h1 with (r, h2, t2) => (r, h2, t1 ++ t2) end
  | (Raise e, h1, t1) => (Raise e, h1, t1)
  end.

Definition raise {A} (e : exn) : M A := λ h, (Raise e, h, []).

Definition emit (e : event) : M unit := λ h, (Return (), h, [e]).

Notation "'let*' x ':=' m 'in' k" := (bind m (λ x, k))
  (at level 10, x name, m at level 100, k at level 200).
Notation "'do*' m 'in' k" := (bind m (λ _, k))
  (at level 10, m at level 100, k at level 200).

Definition result_of {A} (r : outcome A * gmap Z (list message) * list event) : outcome A := r.1.1.
Definition history_of {A} (r : outcome A * gmap Z (list message) * list event) : gmap Z (list message) := r.1.2.
Definition trace_of {A} (r : outcome A * gmap Z (list message) * list event) : list event := r.2.

(** The buffer of a user as every read of the dictionary sees it: the
    stored list, or the empty list for a user with no entry. *)
Definition buffer (h : gmap Z (list message)) (user_id : Z) : list message :=
  default [] (h !! user_id).

(** ** Configuration (lines 30-52) *)

Definition SYSTEM_PROMPT : string :=
"You are a friendly and helpful Discord bot assistant. You engage in natural conversations 
and help users with various tasks.

RESPONSE GUIDELINES:
- When asked questions, provide DETAILED and COMPREHENSIVE information
- Include relevant examples, explanations, and context to fully answer the question
- Break down complex topics into easy-to-understand parts
- Use bullet points, numbered lists, or formatting to organize information clearly
- Be thorough but still conversational and friendly
- Use occasional emojis to maintain an engaging tone
- If a topic is broad, cover multiple aspects of it

IMPORTANT CONTENT GUIDELINES - YOU MUST FOLLOW THESE STRICTLY:
- Keep ALL responses appropriate for PG-13 audiences (suitable for ages 13+)
- Do NOT use profanity, explicit language, or crude humor
- Avoid discussing violence, gore, or disturbing content in detail
- Do not engage with requests for adult content, illegal activities, or harmful information
- Keep discussions family-friendly and appropriate for all ages
- If asked about inappropriate topics, politely decline and redirect to appropriate conversation
- Be respectful and maintain a positive, wholesome tone at all times".

Definition MAX_HISTORY_LENGTH : nat := 20.

Definition command_prefix : string := "!".

(** ** The history dictionary *)

(** [conversation_history[user_id]] as an expression: a [defaultdict(list)]
    stores a fresh empty list under a missing key and returns it. *)
Definition getitem (user_id : Z) : M (list message) := λ h,
  match h !! user_id with
  | Some l => (Return l, h, [])
  | None => (Return [], <[user_id := []]> h, [])
  end.

(** [conversation_history[user_id] = l]. *)
Definition setitem (user_id : Z) (l : list message) : M unit := λ h,
  (Return (), <[user_id := l]> h, []).

(** [conversation_history[user_id].append(m)]. *)
Definition append (user_id : Z) (m : message) : M unit :=
  let* l := getitem user_id in
  setitem user_id (l ++ [m]).

(** Lines 84-85: the trim after the append of the user turn. *)
Definition trim (user_id : Z) : M unit :=
  let* l := getitem user_id in
  if MAX_HISTORY_LENGTH <? length l then
    let* l' := getitem user_id in
    setitem user_id (Py.last_slice MAX_HISTORY_LENGTH l')
  else ret ().

(** Lines 88-89: the messages of the request. *)
Definition render (user_id : Z) (system_prompt : string) : M (list message) :=
  let messages := [Message "system" system_prompt] in
  let* l := getitem user_id in
  ret (messages ++ l).

(** Line 113: [conversation_history[user_id].pop()]; [list.pop] raises
    [IndexError] on an empty list. *)
Definition rollback_last (user_id : Z) : M unit :=
  let* l := getitem user_id in
  match l with
  | [] => raise IndexError
  | _ :: _ => setitem user_id (removelast l)
  end.

(** Lines 77-85: the user turn is appended and the history trimmed. *)
Definition add_user_turn (user_id : Z) (user_message : string) : M unit :=
  do* append user_id (Message "user" user_message) in
  trim user_id.

(** Lines 66-114.  [complete] stands for the completion client: the [try]
    block either reaches line 101 with the text of the reply or raises. *)
Definition get_ai_response (complete : list message → completion)
    (user_id : Z) (user_message : string) : M string :=
  do* add_user_turn user_id user_message in
  let* messages := render user_id SYSTEM_PROMPT in
  do* emit (ApiCall messages) in
  match complete messages with
  | Completed ai_message =>
      do* append user_id (Message "assistant" ai_message) in
      ret ai_message
  | Failed detail =>
      do* rollback_last user_id in
      ret ("Sorry, I encountered an error: " +:+ detail)
  end.

(** Lines 117-119. *)
Definition reset_conversation (user_id : Z) : M unit :=
  setitem user_id [].

(** ** The dispatcher *)

(** What [on_message] reads of a [discord.Message]. *)
Record discord_message : Type := DiscordMessage {
  author_id : Z;                (* message.author.id *)
  author_is_bot_user : bool;    (* message.author == bot.user *)
  author_is_bot : bool;         (* message.author.bot *)
  text : string;                (* message.content *)
  in_dm_channel : bool;         (* isinstance(message.channel, discord.DMChannel) *)
  bot_mentioned : bool          (* bot.user.mentioned_in(message) *)
}.

Definition reset_confirmation : string :=
  "🔄 Conversation reset! I've forgotten our previous chat. Let's start fresh!".

(** Lines 182-186. *)
Definition reset_command (m : discord_message) : M unit :=
  do* reset_conversation (author_id m) in
  emit (Reply reset_confirmation).

(** Lines 189-218: the embed is a constant. *)
Definition help_command (m : discord_message) : M unit :=
  emit ReplyEmbed.

(** Modelled from the spec: [bot.process_commands], the command dispatch of
    the [discord.ext.commands] library, is not part of the repository.  The
    model keeps what the spec says of the command surface and what the bot
    configures (prefix "!", the two commands registered at lines 182 and
    189, no error handler): messages of bot accounts are skipped; after the
    prefix the name of the command is the text up to the first whitespace;
    a registered command is invoked with the message as its context and
    surplus arguments are ignored; an unrecognised name is silently
    ignored, nothing is sent. *)
Definition command_name (m : discord_message) : string :=
  Py.first_word (Py.drop (String.length command_prefix) (text m)).

Definition process_commands (m : discord_message) : M unit :=
  if author_is_bot m then ret ()
  else if Py.startswith command_prefix (text m) then
    let invoker := command_name m in
    if decide (invoker = "reset") then reset_command m
    else if decide (invoker = "help") then help_command m
    else ret ()
  else ret ().

(** Lines 175-179: the loop over [enumerate(chunks)]. *)
Fixpoint send_chunks (chunks : list (nat * string)) : M unit :=
  match chunks with
  | [] => ret ()
  | (i, chunk) :: rest =>
      do* (if i =? 0 then emit (Reply chunk) else emit (ChannelSend chunk)) in
      send_chunks rest
  end.

(** Lines 170-179. *)
Definition send_response (response : string) : M unit :=
  if String.length response <=? 2000 then emit (Reply response)
  else
    let chunks := (λ i, Py.slice i (i + 2000) response)
                    <$> Py.range 0 (String.length response) 2000 in
    send_chunks (Py.enumerate chunks).

(** Lines 148-161: whether to respond, and to which text.  The two
    assignments of lines 160 and 161 both start from [message.content]. *)
Definition derive_user_message (bot_user_id : Z) (m : discord_message) : bool * string :=
  let should_respond := false in
  let user_message := text m in
  if in_dm_channel m then (true, user_message)
  else if bot_mentioned m then
    let user_message :=
      Py.strip (Py.replace ("<@" +:+ Py.format_int bot_user_id +:+ ">") "" (text m)) in
    let user_message :=
      Py.strip (Py.replace ("<@!" +:+ Py.format_int bot_user_id +:+ ">") "" (text m)) in
    (true, user_message)
  else (should_respond, user_message).

(** Lines 134-179. *)
Definition on_message (complete : list message → completion) (bot_user_id : Z)
    (m : discord_message) : M unit :=
  if author_is_bot_user m then ret ()
  else
    do* process_commands m in
    if Py.startswith command_prefix (text m) then ret ()
    else
      let '(should_respond, user_message) := derive_user_message bot_user_id m in
      if should_respond && Py.truthy user_message then
        do* emit Typing in
        let* response := get_ai_response complete (author_id m) user_message in
        send_response response
      else ret ().

(** The fragments of a trace: the texts sent to the channel, in order. *)
Definition fragment_of (e : event) : option string :=
  match e with
  | Reply s | ChannelSend s => Some s
  | _ => None
  end.

Definition fragments (t : list event) : list string := omap fragment_of t.

(** ** Sample runs *)

Definition echo : list message → completion := λ ms, Completed "ok".
Definition failing : list message → completion := λ ms, Failed "timeout".

Definition dm (uid : Z) (s : string) : discord_message :=
  DiscordMessage uid false false s true false.
Definition mention (uid : Z) (s : string) : discord_message :=
  DiscordMessage uid false false s false true.


(** A reply of 4500 characters. *)
Definition long_reply : string := Py.repeat "a" 4500.

(** A run of the bot: the gateway delivers the events one after the other. *)
Fixpoint deliveries (complete : list message → completion) (bot_user_id : Z)
    (ms : list discord_message) : M unit :=
  match ms with
  | [] => ret ()
  | m :: rest =>
      do* on_message complete bot_user_id m in
      deliveries complete bot_user_id rest
  end.

(** The dictionary after [n] direct messages "hi" of user 7, each answered. *)
Definition after_exchanges (n : nat) : gmap Z (list message) :=
  history_of (deliveries echo 123 (replicate n (dm 7 "hi")) ∅).

(** Successive user turns: lines 77-85 once for each text. *)
Fixpoint user_turns (user_id : Z) (texts : list string) : M unit :=
  match texts with
  | [] => ret ()
  | t :: rest => do* add_user_turn user_id t in user_turns user_id rest
  end.

(** The event that line 177 or line 179 produces for the chunk at index [i]. *)
Definition chunk_event (ic : nat * string) : event :=
  if ic.1 =? 0 then Reply ic.2 else ChannelSend ic.2.

(** The chunks of line 174, by their position: chunk [k] is
    [response[2000*k : 2000*k + 2000]]. *)
Definition chunks (response : string) : list string :=
  (λ k, Py.slice (k * 2000) (k * 2000 + 2000) response)
    <$> seq 0 ((String.length response + (2000 - 1)) / 2000).

(** ** Start-up (lines 17-24) *)

(** [os.getenv] gives [None] for an unset variable; [not v] holds of [None]
    and of the empty string. *)
Definition env_truthy (v : option string) : bool :=
  match v with
  | None => false
  | Some s => Py.truthy s
  end.

Inductive startup : Type :=
  | Started                     (* the module goes on to build the clients *)
  | ValueError (msg : string).

(** Lines 21-24. *)
Definition validate_tokens (DISCORD_TOKEN OPENAI_API_KEY : option string) : startup :=
  if negb (env_truthy DISCORD_TOKEN) then
    ValueError "[ERROR] DISCORD_TOKEN not found! Please add it to your .env file."
  else if negb (env_truthy OPENAI_API_KEY) then
    ValueError "[ERROR] OPENAI_API_KEY not found! Please add it to your .env file."
  else Started.

(** ** Runs and shapes of buffers *)

(** A run of the bot in which every event comes with the behaviour of the
    completion client at the time it is handled. *)
Fixpoint run (bot_user_id : Z)
    (events : list ((list message → completion) * discord_message)) : M unit :=
  match events with
  | [] => ret ()
  | (complete, m) :: rest =>
      do* on_message complete bot_user_id m in
      run bot_user_id rest
  end.

(** [alternates b l]: the roles of [l] alternate between "user" and
    "assistant", starting with "user" when [b] holds, and the last one, if
    any, is "assistant". *)
Fixpoint alternates (expect_user : bool) (l : list message) : bool :=
  match l with
  | [] => expect_user
  | m :: rest =>
      bool_decide (role m = if expect_user then "user" else "assistant")
      && alternates (negb expect_user) rest
  end.

Definition exchanges_only (l : list message) : bool :=
  alternates true l || alternates false l.

Definition starts_with_space (s : string) : bool :=
  match s with
  | EmptyString => false
  | String c _ => Py.isspace c
  end.

Fixpoint ends_with_space (s : string) : bool :=
  match s with
  | EmptyString => false
  | String c EmptyString => Py.isspace c
  | String _ s' => ends_with_space s'
  end.

(** ** What each operation does to the dictionary *)

(** The list that lines 84-85 leave in place of [l]. *)
Definition trimmed (l : list message) : list message :=
  if MAX_HISTORY_LENGTH <? length l then Py.last_slice MAX_HISTORY_LENGTH l else l.

(** The messages of the request that [get_ai_response] sends. *)
Definition prompt (h : gmap Z (list message)) (user_id : Z) (user_message : string)
    : list message :=
  Message "system" SYSTEM_PROMPT
    :: trimmed (buffer h user_id ++ [Message "user" user_message]).

Section history_store.
Implicit Types (h : gmap Z (list message)) (u v : Z) (l : list message).

Lemma buffer_insert_eq h u l : buffer (<[u := l]> h) u = l.
Proof. unfold buffer. by rewrite lookup_insert_eq. Qed.

Lemma buffer_insert_ne h u v l : u ≠ v → buffer (<[u := l]> h) v = buffer h v.
Proof. intros. unfold buffer. by rewrite lookup_insert_ne. Qed.

Lemma insert_buffer_id h u : is_Some (h !! u) → <[u := buffer h u]> h = h.
Proof. intros [l Hl]. unfold buffer. rewrite Hl. by apply insert_id. Qed.

Lemma getitem_run h u :
  getitem u h = (Return (buffer h u), <[u := buffer h u]> h, []).
Proof.
  unfold getitem, buffer. destruct (h !! u) as [l|] eqn:E; simpl; [|done].
  by rewrite insert_id.
Qed.

Lemma append_run h u m :
  append u m h = (Return (), <[u := buffer h u ++ [m]]> h, []).
Proof.
  unfold append, bind. rewrite getitem_run. unfold setitem.
  by rewrite insert_insert_eq.
Qed.

Lemma trim_run h u :
  trim u h = (Return (), <[u := trimmed (buffer h u)]> h, []).
Proof.
  unfold trim, bind. rewrite getitem_run. unfold trimmed.
  destruct (MAX_HISTORY_LENGTH <? length (buffer h u)).
  - rewrite getitem_run, buffer_insert_eq. unfold setitem.
    by rewrite !insert_insert_eq.
  - done.
Qed.

Lemma add_user_turn_run h u s :
  add_user_turn u s h
  = (Return (), <[u := trimmed (buffer h u ++ [Message "user" s])]> h, []).
Proof.
  unfold add_user_turn, bind. rewrite append_run, trim_run, buffer_insert_eq.
  by rewrite insert_insert_eq.
Qed.

Lemma render_run h u p :
  render u p h = (Return (Message "system" p :: buffer h u), <[u := buffer h u]> h, []).
Proof. unfold render, bind. by rewrite getitem_run. Qed.

Lemma rollback_last_run h u :
  rollback_last u h
  = match buffer h u with
    | [] => (Raise IndexError, <[u := []]> h, [])
    | _ :: _ => (Return (), <[u := removelast (buffer h u)]> h, [])
    end.
Proof.
  unfold rollback_last, bind. rewrite getitem_run.
  destruct (buffer h u) as [|m l]; [done|].
  unfold setitem. by rewrite insert_insert_eq.
Qed.

Lemma reset_conversation_run h u :
  reset_conversation u h = (Return (), <[u := []]> h, []).
Proof. done. Qed.

Lemma MAX_HISTORY_LENGTH_pos : 0 < MAX_HISTORY_LENGTH.
Proof. unfold MAX_HISTORY_LENGTH. lia. Qed.

Lemma last_slice_drop {A} n (l : list A) :
  0 < n → Py.last_slice n l = drop (length l - n) l.
Proof. by destruct n; [lia|]. Qed.

Lemma length_trimmed l : length (trimmed l) = length l `min` MAX_HISTORY_LENGTH.
Proof.
  unfold trimmed. destruct (Nat.ltb_spec MAX_HISTORY_LENGTH (length l)); [|lia].
  rewrite last_slice_drop by apply MAX_HISTORY_LENGTH_pos.
  rewrite length_drop. lia.
Qed.

Lemma trimmed_drop l :
  trimmed l = drop (length l - MAX_HISTORY_LENGTH) l.
Proof.
  unfold trimmed. destruct (Nat.ltb_spec MAX_HISTORY_LENGTH (length l)).
  - apply last_slice_drop, MAX_HISTORY_LENGTH_pos.
  - by replace (length l - MAX_HISTORY_LENGTH) with 0 by lia.
Qed.

Lemma trimmed_snoc_ne l m : trimmed (l ++ [m]) ≠ [].
Proof.
  intros E. apply (f_equal length) in E. rewrite length_trimmed, length_app in E.
  pose proof MAX_HISTORY_LENGTH_pos. simpl in E. lia.
Qed.

Lemma get_ai_response_run complete h u s :
  get_ai_response complete u s h
  = match complete (prompt h u s) with
    | Completed a =>
        (Return a,
         <[u := trimmed (buffer h u ++ [Message "user" s]) ++ [Message "assistant" a]]> h,
         [ApiCall (prompt h u s)])
    | Failed d =>
        (Return ("Sorry, I encountered an error: " +:+ d),
         <[u := removelast (trimmed (buffer h u ++ [Message "user" s]))]> h,
         [ApiCall (prompt h u s)])
    end.
Proof.
  unfold get_ai_response, bind at 1. rewrite add_user_turn_run.
  unfold bind at 1. rewrite render_run, buffer_insert_eq, insert_insert_eq.
  fold (prompt h u s). unfold bind at 1, emit.
  destruct (complete (prompt h u s)) as [a|d].
  - unfold bind, ret. rewrite append_run, buffer_insert_eq, insert_insert_eq. done.
  - unfold bind, ret. rewrite rollback_last_run, buffer_insert_eq.
    pose proof (trimmed_snoc_ne (buffer h u) (Message "user" s)).
    destruct (trimmed _) eqn:E; [done|]. by rewrite insert_insert_eq.
Qed.

End history_store.

(** ** The history store *)

Section history_claims.
Implicit Types (h : gmap Z (list message)) (u v : Z) (l : list message).

Lemma removelast_trimmed_snoc l m :
  removelast (trimmed (l ++ [m])) = drop (length l - (MAX_HISTORY_LENGTH - 1)) l.
Proof.
  pose proof MAX_HISTORY_LENGTH_pos.
  rewrite trimmed_drop, length_app. change (length [m]) with 1.
  rewrite drop_app_le by lia. rewrite removelast_last.
  f_equal. lia.
Qed.

(** After any call of [get_ai_response] the buffer of the user holds at
    most [MAX_HISTORY_LENGTH + 1] messages. *)
Lemma get_ai_response_length complete h u s :
  length (buffer (history_of (get_ai_response complete u s h)) u)
  ≤ MAX_HISTORY_LENGTH + 1.
Proof.
  rewrite get_ai_response_run.
  destruct (complete _) as [a|d]; unfold history_of; cbn [fst snd];
    rewrite buffer_insert_eq.
  - rewrite length_app, length_trimmed. change (length [_]) with 1. lia.
  - rewrite removelast_trimmed_snoc, length_drop. lia.
Qed.

Lemma user_turns_Return u texts h : result_of (user_turns u texts h) = Return ().
Proof.
  revert h. induction texts as [|t rest IH]; intros h; [done|].
  simpl. unfold bind. rewrite add_user_turn_run.
  specialize (IH (<[u := trimmed (buffer h u ++ [Message "user" t])]> h)).
  destruct (user_turns u rest _) as [[r h2] t2]. by simpl in *.
Qed.

Lemma user_turns_history u t rest h :
  history_of (user_turns u (t :: rest) h)
  = history_of (user_turns u rest
      (<[u := trimmed (buffer h u ++ [Message "user" t])]> h)).
Proof.
  simpl. unfold bind. rewrite add_user_turn_run.
  by destruct (user_turns u rest _) as [[r h2] t2].
Qed.

Lemma user_turns_buffer u texts h :
  texts ≠ [] →
  buffer (history_of (user_turns u texts h)) u
  = trimmed (buffer h u ++ (Message "user" <$> texts)).
Proof.
  revert h. induction texts as [|t rest IH]; intros h Hne; [done|].
  rewrite user_turns_history.
  destruct rest as [|t' rest'].
  { unfold history_of. simpl. by rewrite buffer_insert_eq. }
  rewrite IH by done. rewrite buffer_insert_eq.
  rewrite !trimmed_drop. rewrite !length_app, !length_drop, !length_app.
  rewrite !length_fmap. change (length [_]) with 1.
  rewrite <- drop_app_le by (rewrite length_app; change (length [_]) with 1; lia).
  rewrite drop_drop, <- (assoc_L (++)). change ([?x] ++ ?y) with (x :: y).
  f_equal. pose proof MAX_HISTORY_LENGTH_pos. simpl length. lia.
Qed.

(** What a failed exchange leaves behind, whatever the buffer held: its
    last [MAX_HISTORY_LENGTH - 1] messages. *)
Lemma failed_exchange_buffer complete h u s d :
  complete (prompt h u s) = Failed d →
  buffer (history_of (get_ai_response complete u s h)) u
  = drop (length (buffer h u) - (MAX_HISTORY_LENGTH - 1)) (buffer h u).
Proof.
  intros Hfail. rewrite get_ai_response_run, Hfail.
  unfold history_of; cbn [fst snd]. rewrite buffer_insert_eq.
  apply removelast_trimmed_snoc.
Qed.

(** C1 (as amended): when the user's buffer holds fewer than
    [MAX_HISTORY_LENGTH] messages and the completion call of
    [get_ai_response] fails, the call returns the apology and leaves the
    user's buffer exactly as it was before the user turn was appended. *)
Theorem failed_exchange_rollback complete h u s d :
  length (buffer h u) < MAX_HISTORY_LENGTH →
  complete (prompt h u s) = Failed d →
  result_of (get_ai_response complete u s h)
    = Return ("Sorry, I encountered an error: " +:+ d)
  ∧ buffer (history_of (get_ai_response complete u s h)) u = buffer h u.
Proof.
  intros Hlt Hfail. split.
  - by rewrite get_ai_response_run, Hfail.
  - rewrite (failed_exchange_buffer complete h u s d) by done.
    by replace (length (buffer h u) - (MAX_HISTORY_LENGTH - 1)) with 0 by lia.
Qed.

Lemma failed_exchange_rollback_witness :
  length (buffer (after_exchanges 3) 7) < MAX_HISTORY_LENGTH
  ∧ failing (prompt (after_exchanges 3) 7 "hi") = Failed "timeout"
  ∧ buffer (history_of (get_ai_response failing 7 "hi" (after_exchanges 3))) 7
    = buffer (after_exchanges 3) 7.
Proof.
  split; [vm_compute; lia|]. split; [reflexivity|].
  apply (failed_exchange_rollback failing (after_exchanges 3) 7 "hi" "timeout");
    [vm_compute; lia | reflexivity].
Defined.

(** C1 (as stated) fails on a full buffer: after ten answered exchanges
    user 7 holds 20 messages; a further message whose completion fails
    leaves 19 of them. *)
Lemma failed_exchange_not_restored :
  length (buffer (after_exchanges 10) 7) = 20
  ∧ buffer (history_of (get_ai_response failing 7 "hi" (after_exchanges 10))) 7
    ≠ buffer (after_exchanges 10) 7.
Proof.
  split; [by vm_compute|].
  intros E. apply (f_equal length) in E. vm_compute in E. discriminate.
Qed.

(** C3: eleven direct messages of one user, each answered by the
    completion client, leave 21 messages in that user's buffer, one more
    than [MAX_HISTORY_LENGTH]: the assistant turn is appended after the
    trim. *)
Theorem history_exceeds_max_after_reply :
  length (buffer (after_exchanges 11) 7) = 21
  ∧ MAX_HISTORY_LENGTH < length (buffer (after_exchanges 11) 7).
Proof. split; vm_compute; lia. Qed.



(** C6: after more than [MAX_HISTORY_LENGTH] user turns of one user, each
    appended and trimmed as in lines 77-85, the buffer holds exactly
    [MAX_HISTORY_LENGTH] messages: the most recent turns, oldest first. *)
Theorem user_turns_keep_most_recent u texts h :
  MAX_HISTORY_LENGTH < length texts →
  result_of (user_turns u texts h) = Return ()
  ∧ length (buffer (history_of (user_turns u texts h)) u) = MAX_HISTORY_LENGTH
  ∧ buffer (history_of (user_turns u texts h)) u
    = Message "user" <$> drop (length texts - MAX_HISTORY_LENGTH) texts.
Proof.
  intros Hlen. split; [apply user_turns_Return|].
  assert (texts ≠ []) as Hne by (intros ->; simpl in Hlen; lia).
  rewrite user_turns_buffer by done.
  rewrite length_trimmed, trimmed_drop, length_app, length_fmap.
  split; [lia|].
  rewrite drop_app_ge by lia. rewrite fmap_drop. f_equal. lia.
Qed.

Lemma user_turns_keep_most_recent_witness :
  MAX_HISTORY_LENGTH < length (replicate 23 "x")
  ∧ length (buffer (history_of (user_turns 7 (replicate 23 "x") ∅)) 7)
    = MAX_HISTORY_LENGTH.
Proof.
  split; [vm_compute; lia|].
  apply (user_turns_keep_most_recent 7 (replicate 23 "x") ∅). vm_compute; lia.
Defined.

(** C8: [render] returns the system turn followed by the user's buffer in
    order; it changes no buffer, and leaves the dictionary as it is where
    [get_ai_response] calls it, after the append and the trim.  After at
    most [MAX_HISTORY_LENGTH] user turns from an empty buffer it returns
    the system turn followed by exactly those turns in order. *)
Theorem render_returns_system_then_buffer u p s texts h :
  (result_of (render u p h) = Return (Message "system" p :: buffer h u)
   ∧ trace_of (render u p h) = []
   ∧ ∀ v, buffer (history_of (render u p h)) v = buffer h v)
  ∧ history_of (render u p (history_of (add_user_turn u s h)))
    = history_of (add_user_turn u s h)
  ∧ (buffer h u = [] → length texts ≤ MAX_HISTORY_LENGTH →
     result_of (render u p (history_of (user_turns u texts h)))
     = Return (Message "system" p :: (Message "user" <$> texts))).
Proof.
  split; [|split].
  - rewrite render_run. unfold result_of, trace_of, history_of; cbn [fst snd].
    split; [done|]. split; [done|]. intros v.
    destruct (decide (u = v)) as [->|Hne].
    + by rewrite buffer_insert_eq.
    + by rewrite buffer_insert_ne.
  - rewrite add_user_turn_run, render_run.
    unfold history_of; cbn [fst snd]. by rewrite buffer_insert_eq, insert_insert_eq.
  - intros Hemp Hlen. rewrite render_run. unfold result_of; cbn [fst snd].
    do 2 f_equal. destruct texts as [|t rest]; [done|].
    rewrite user_turns_buffer by done. rewrite Hemp, trimmed_drop.
    rewrite app_nil_l, length_fmap.
    by replace (length (t :: rest) - MAX_HISTORY_LENGTH) with 0 by lia.
Qed.

Lemma render_returns_system_then_buffer_witness :
  buffer ∅ 7 = [] ∧ length ["a"; "b"; "c"] ≤ MAX_HISTORY_LENGTH
  ∧ result_of (render 7 "P" (history_of (user_turns 7 ["a"; "b"; "c"] ∅)))
    = Return [Message "system" "P"; Message "user" "a"; Message "user" "b";
              Message "user" "c"].
Proof.
  split; [reflexivity|]. split; [vm_compute; lia|].
  apply (render_returns_system_then_buffer 7 "P" "" ["a"; "b"; "c"] ∅);
    [reflexivity | vm_compute; lia].
Defined.

(** C10: an operation of the history store keyed by one user (append,
    trim, the user turn of lines 77-85, render, rollback, the whole of
    [get_ai_response] on success or failure, reset) leaves the entry of
    every other user in the dictionary, hence its buffer, as it was. *)
Theorem other_users_unchanged complete u v m s p h :
  u ≠ v →
  history_of (append u m h) !! v = h !! v
  ∧ history_of (trim u h) !! v = h !! v
  ∧ history_of (add_user_turn u s h) !! v = h !! v
  ∧ history_of (render u p h) !! v = h !! v
  ∧ history_of (rollback_last u h) !! v = h !! v
  ∧ history_of (get_ai_response complete u s h) !! v = h !! v
  ∧ history_of (reset_conversation u h) !! v = h !! v
  ∧ buffer (history_of (get_ai_response complete u s h)) v = buffer h v
  ∧ buffer (history_of (reset_conversation u h)) v = buffer h v.
Proof.
  intros Hne.
  assert (history_of (get_ai_response complete u s h) !! v = h !! v) as Hget.
  { rewrite get_ai_response_run.
    destruct (complete _); unfold history_of; cbn [fst snd];
      by rewrite lookup_insert_ne. }
  rewrite append_run, trim_run, add_user_turn_run, render_run,
    rollback_last_run, reset_conversation_run.
  assert (∀ h', h' !! v = h !! v → buffer h' v = buffer h v) as Hbuf.
  { intros h' E. unfold buffer. by rewrite E. }
  destruct (buffer h u); unfold history_of in *; cbn [fst snd];
    rewrite ?lookup_insert_ne by done;
    (repeat split; try done; apply Hbuf; try done; by rewrite lookup_insert_ne).
Qed.

Lemma other_users_unchanged_witness :
  (7 ≠ 8)%Z
  ∧ buffer (history_of (get_ai_response failing 7 "hi" (after_exchanges 10))) 8
    = buffer (after_exchanges 10) 8.
Proof.
  split; [discriminate|].
  apply (other_users_unchanged failing 7 8 (Message "user" "x") "hi" "P"
           (after_exchanges 10)).
  discriminate.
Defined.

End history_claims.

(** ** Strings *)

Section strings.
Implicit Types (s t : string) (n m c : nat).

Lemma str_app_cons a s t : String a s +:+ t = String a (s +:+ t).
Proof. done. Qed.

Lemma str_app_empty_r s : s +:+ "" = s.
Proof. induction s as [|a s IH]; [done|]. by rewrite str_app_cons, IH. Qed.

Lemma str_app_assoc s t r : (s +:+ t) +:+ r = s +:+ t +:+ r.
Proof. induction s as [|a s IH]; [done|]. by rewrite !str_app_cons, IH. Qed.

Lemma str_length_take n s : String.length (Py.take n s) = n `min` String.length s.
Proof.
  revert s. induction n as [|n IH]; intros [|a s]; simpl; [done..|].
  by rewrite IH.
Qed.

Lemma str_length_drop n s : String.length (Py.drop n s) = String.length s - n.
Proof. revert s. induction n as [|n IH]; intros [|a s]; simpl; auto. Qed.

Lemma str_take_ge n s : String.length s ≤ n → Py.take n s = s.
Proof.
  revert s. induction n as [|n IH]; intros [|a s]; simpl; intros H; try done; try lia.
  rewrite IH; [done|lia].
Qed.

Lemma str_take_take_drop n c s :
  Py.take n s +:+ Py.take c (Py.drop n s) = Py.take (n + c) s.
Proof.
  revert s. induction n as [|n IH]; intros s; [done|].
  destruct s as [|a s]; simpl; [by destruct c|].
  by rewrite str_app_cons, IH.
Qed.

Lemma length_slice i j s :
  String.length (Py.slice i j s) = (j - i) `min` (String.length s - i).
Proof. unfold Py.slice. by rewrite str_length_take, str_length_drop. Qed.

Lemma join_app (l k : list string) : Py.join (l ++ k) = Py.join l +:+ Py.join k.
Proof.
  induction l as [|x l IH]; [done|]. simpl. by rewrite IH, str_app_assoc.
Qed.

(** Consecutive slices of width [c] join to a prefix. *)
Lemma join_slices c s m :
  Py.join ((λ k, Py.slice (k * c) (k * c + c) s) <$> seq 0 m) = Py.take (m * c) s.
Proof.
  induction m as [|m IH]; [done|].
  rewrite seq_S, fmap_app, join_app, IH. simpl Py.join.
  rewrite str_app_empty_r. unfold Py.slice.
  replace (m * c + c - m * c) with c by lia.
  rewrite str_take_take_drop. f_equal. lia.
Qed.

Lemma ceil_div_bounds c n :
  0 < c → n ≤ (n + (c - 1)) / c * c < n + c.
Proof.
  intros Hc.
  pose proof (Nat.div_mod_eq (n + (c - 1)) c) as E.
  pose proof (Nat.mod_upper_bound (n + (c - 1)) c) as U.
  nia.
Qed.

Lemma range_from_zero stop step :
  Py.range 0 stop step = (λ k, k * step) <$> seq 0 ((stop + (step - 1)) / step).
Proof. unfold Py.range. by rewrite Nat.sub_0_r. Qed.

End strings.

(** ** The dispatcher *)

Section dispatcher.
Implicit Types (h : gmap Z (list message)) (m : discord_message).

Lemma send_chunks_run ics h :
  send_chunks ics h = (Return (), h, chunk_event <$> ics).
Proof.
  induction ics as [|[i c] rest IH]; [done|].
  cbn [send_chunks]. rewrite fmap_cons. unfold bind, chunk_event at 1. cbn [fst snd].
  destruct (i =? 0); unfold emit; by rewrite IH.
Qed.

Lemma chunk_event_imap (g : nat → string → nat * string) (l : list string) :
  (∀ i x, (g i x).1 ≠ 0 ∧ (g i x).2 = x) →
  chunk_event <$> imap g l = ChannelSend <$> l.
Proof.
  revert g. induction l as [|x l IH]; intros g Hg; [done|].
  cbn [imap]. rewrite !fmap_cons. rewrite IH by (intros i y; apply Hg).
  f_equal. unfold chunk_event. destruct (Hg 0 x) as [H1 H2].
  destruct (Nat.eqb_spec (g 0 x).1 0); [done|]. by rewrite H2.
Qed.

Lemma chunk_event_enumerate first rest :
  chunk_event <$> Py.enumerate (first :: rest) = Reply first :: (ChannelSend <$> rest).
Proof.
  unfold Py.enumerate. cbn [imap]. rewrite fmap_cons. f_equal.
  by apply chunk_event_imap.
Qed.

Lemma fragments_ChannelSend (l : list string) : fragments (ChannelSend <$> l) = l.
Proof. induction l as [|x l IH]; [done|]. unfold fragments in *. cbn. by rewrite IH. Qed.

Lemma send_response_short response h :
  String.length response ≤ 2000 →
  send_response response h = (Return (), h, [Reply response]).
Proof.
  intros H. unfold send_response.
  by destruct (Nat.leb_spec (String.length response) 2000); [|lia].
Qed.

Lemma send_response_long response h :
  2000 < String.length response →
  send_response response h
  = (Return (), h, chunk_event <$> Py.enumerate (chunks response)).
Proof.
  intros H. unfold send_response.
  destruct (Nat.leb_spec (String.length response) 2000); [lia|].
  rewrite send_chunks_run, range_from_zero, <- list_fmap_compose.
  unfold chunks, compose. reflexivity.
Qed.


Lemma chunks_nonempty response :
  0 < String.length response → chunks response ≠ [].
Proof.
  intros H E. apply (f_equal length) in E. unfold chunks in E.
  rewrite length_fmap, length_seq in E.
  pose proof (ceil_div_bounds 2000 (String.length response)). simpl length in E. lia.
Qed.

Lemma join_chunks response : Py.join (chunks response) = response.
Proof.
  unfold chunks. rewrite join_slices. apply str_take_ge.
  pose proof (ceil_div_bounds 2000 (String.length response)). lia.
Qed.

(** C2: on a shared channel where the bot is mentioned, the text
    "<@123> explain recursion" (123 being the bot's id) is passed on with
    the plain mention still in it, and reaches the history and the
    completion request that way; only the nickname encoding "<@!123>" is
    removed.  Line 161 starts again from [message.content] and discards
    what line 160 computed. *)
Theorem plain_mention_is_kept :
  derive_user_message 123 (mention 7 "<@123> explain recursion")
    = (true, "<@123> explain recursion")
  ∧ history_of (on_message echo 123 (mention 7 "<@123> explain recursion") ∅) !! 7%Z
    = Some [Message "user" "<@123> explain recursion"; Message "assistant" "ok"]
  ∧ derive_user_message 123 (mention 7 "<@!123> explain recursion")
    = (true, "explain recursion").
Proof. split; [|split]; by vm_compute. Qed.



Lemma send_response_Return response h :
  result_of (send_response response h) = Return ()
  ∧ history_of (send_response response h) = h.
Proof.
  destruct (Nat.le_gt_cases (String.length response) 2000).
  - by rewrite send_response_short.
  - by rewrite send_response_long.
Qed.

Lemma join_fragments_send_response response h :
  Py.join (fragments (trace_of (send_response response h))) = response.
Proof.
  destruct (Nat.le_gt_cases (String.length response) 2000) as [Hle|Hgt].
  - rewrite send_response_short by done.
    unfold trace_of, fragments. cbn. apply str_app_empty_r.
  - rewrite send_response_long by done.
    pose proof (join_chunks response) as Hjoin.
    pose proof (chunks_nonempty response) as Hne.
    destruct (chunks response) as [|first rest]; [exfalso; apply Hne; [lia|done]|].
    rewrite chunk_event_enumerate. unfold trace_of; cbn [snd].
    change (fragments (Reply first :: (ChannelSend <$> rest)))
      with (first :: fragments (ChannelSend <$> rest)).
    by rewrite fragments_ChannelSend.
Qed.

(** C9: the fragments that [send_response] emits, joined in the order of
    emission, are the reply text; sending ends normally and changes no
    history. *)
Theorem fragments_rebuild_reply response h :
  result_of (send_response response h) = Return ()
  ∧ history_of (send_response response h) = h
  ∧ Py.join (fragments (trace_of (send_response response h))) = response.
Proof.
  destruct (send_response_Return response h) as [Hr Hh].
  split; [done|]. split; [done|]. apply join_fragments_send_response.
Qed.

Lemma on_message_command complete bot_user_id m h :
  author_is_bot_user m = false →
  Py.startswith command_prefix (text m) = true →
  on_message complete bot_user_id m h = process_commands m h.
Proof.
  intros Hself Hprefix. unfold on_message. rewrite Hself. unfold bind.
  rewrite Hprefix. destruct (process_commands m h) as [[[[]|e] h1] t1]; [|done].
  unfold ret. by rewrite app_nil_r.
Qed.

Lemma process_commands_plain m h :
  Py.startswith command_prefix (text m) = false →
  process_commands m h = (Return (), h, []).
Proof.
  intros H. unfold process_commands. rewrite H. by destruct (author_is_bot m).
Qed.

(** An event that is answered: the typing indicator, one completion
    request, then the fragments of the reply, which join to the text that
    [get_ai_response] returned. *)
Lemma on_message_respond complete bot_user_id m h user_message :
  author_is_bot_user m = false →
  Py.startswith command_prefix (text m) = false →
  derive_user_message bot_user_id m = (true, user_message) →
  Py.truthy user_message = true →
  ∃ response h',
    get_ai_response complete (author_id m) user_message h
      = (Return response, h', [ApiCall (prompt h (author_id m) user_message)])
    ∧ on_message complete bot_user_id m h
      = (Return (), h',
         Typing :: ApiCall (prompt h (author_id m) user_message)
           :: trace_of (send_response response h'))
    ∧ Py.join (fragments (trace_of (on_message complete bot_user_id m h))) = response.
Proof.
  intros Hself Hprefix Hderive Htruthy.
  assert (∃ response h',
    get_ai_response complete (author_id m) user_message h
      = (Return response, h', [ApiCall (prompt h (author_id m) user_message)]))
    as (response & h' & Hget).
  { rewrite get_ai_response_run. destruct (complete _); eauto. }
  exists response, h'. split; [done|].
  assert (on_message complete bot_user_id m h
      = (Return (), h',
         Typing :: ApiCall (prompt h (author_id m) user_message)
           :: trace_of (send_response response h'))) as Hrun.
  { unfold on_message. rewrite Hself. unfold bind at 1.
    rewrite process_commands_plain, Hprefix, Hderive, Htruthy by done.
    cbn [andb]. unfold bind, emit. rewrite Hget.
    destruct (Nat.le_gt_cases (String.length response) 2000).
    - by rewrite send_response_short.
    - by rewrite send_response_long. }
  split; [done|]. rewrite Hrun. unfold trace_of at 1; cbn [snd].
  change (fragments (Typing :: ApiCall ?p :: ?t)) with (fragments t).
  apply join_fragments_send_response.
Qed.

Lemma process_commands_cases m h :
  process_commands m h = (Return (), h, [])
  ∨ (command_name m = "reset"
     ∧ process_commands m h
       = (Return (), <[author_id m := []]> h, [Reply reset_confirmation]))
  ∨ (command_name m = "help" ∧ process_commands m h = (Return (), h, [ReplyEmbed])).
Proof.
  unfold process_commands.
  destruct (author_is_bot m); [by left|].
  destruct (Py.startswith command_prefix (text m)); [|by left].
  destruct (decide (command_name m = "reset")) as [Hr|Hr]; [right; left; by split|].
  destruct (decide (command_name m = "help")) as [Hh|Hh]; [right; right; by split|].
  by left.
Qed.

(** C7: a message that the bot did not write itself and whose text starts
    with "!" is handled by the command dispatch alone.  [on_message] ends
    normally; what it sends is nothing, the confirmation of the reset or
    the help embed, so no completion request, typing indicator or AI reply;
    every buffer is as before or has been emptied by the reset, so nothing
    is appended; and when the name after the prefix is neither "reset" nor
    "help", nothing is sent and the dictionary is unchanged. *)
Theorem command_prefix_stops complete bot_user_id m h :
  author_is_bot_user m = false →
  Py.startswith command_prefix (text m) = true →
  on_message complete bot_user_id m h = process_commands m h
  ∧ result_of (on_message complete bot_user_id m h) = Return ()
  ∧ (trace_of (on_message complete bot_user_id m h) = []
     ∨ trace_of (on_message complete bot_user_id m h) = [Reply reset_confirmation]
     ∨ trace_of (on_message complete bot_user_id m h) = [ReplyEmbed])
  ∧ (∀ ms, ApiCall ms ∉ trace_of (on_message complete bot_user_id m h))
  ∧ (∀ v, buffer (history_of (on_message complete bot_user_id m h)) v = buffer h v
          ∨ buffer (history_of (on_message complete bot_user_id m h)) v = [])
  ∧ (command_name m ≠ "reset" → command_name m ≠ "help" →
     on_message complete bot_user_id m h = (Return (), h, [])).
Proof.
  intros Hself Hprefix. rewrite on_message_command by done.
  split; [done|].
  destruct (process_commands_cases m h) as [E|[[Hn E]|[Hn E]]]; rewrite E;
    unfold result_of, trace_of, history_of; cbn [fst snd].
  - repeat split; auto. intros ms Hin. by apply elem_of_nil in Hin.
  - repeat split; auto.
    + intros ms Hin. apply list_elem_of_singleton in Hin. discriminate.
    + intros v. destruct (decide (author_id m = v)) as [->|Hne].
      * right. by rewrite buffer_insert_eq.
      * left. by rewrite buffer_insert_ne.
    + intros Hr. by destruct Hr.
  - repeat split; auto.
    + intros ms Hin. apply list_elem_of_singleton in Hin. discriminate.
    + intros _ Hh. by destruct Hh.
Qed.

Lemma command_prefix_stops_witness :
  author_is_bot_user (dm 7 "!bogus") = false
  ∧ Py.startswith command_prefix (text (dm 7 "!bogus")) = true
  ∧ on_message echo 123 (dm 7 "!bogus") (after_exchanges 3)
    = (Return (), after_exchanges 3, []).
Proof.
  split; [reflexivity|]. split; [reflexivity|].
  apply (command_prefix_stops echo 123 (dm 7 "!bogus") (after_exchanges 3));
    [reflexivity | reflexivity | by vm_compute | by vm_compute].
Defined.

End dispatcher.

(** ** Exchanges and runs *)

Section exchanges.
Implicit Types (h : gmap Z (list message)) (u v : Z) (l : list message).

Lemma trimmed_snoc l m :
  trimmed (l ++ [m]) = drop (length l - (MAX_HISTORY_LENGTH - 1)) l ++ [m].
Proof.
  pose proof MAX_HISTORY_LENGTH_pos.
  rewrite trimmed_drop, length_app. change (length [m]) with 1.
  rewrite drop_app_le by lia. do 2 f_equal. lia.
Qed.

Lemma trimmed_recent l m :
  trimmed (drop (length l - (MAX_HISTORY_LENGTH - 1)) l ++ [m]) = trimmed (l ++ [m]).
Proof.
  rewrite !trimmed_snoc, length_drop, drop_drop. do 2 f_equal. lia.
Qed.

(** X1.  The request of [get_ai_response]: one call, whose messages are the
    system prompt, the last [MAX_HISTORY_LENGTH - 1] stored messages and the
    new user message, at most [MAX_HISTORY_LENGTH + 1] in all. *)
Theorem request_shape complete h u s :
  ∃ p, trace_of (get_ai_response complete u s h) = [ApiCall p]
    ∧ p = Message "system" SYSTEM_PROMPT
          :: drop (length (buffer h u) - (MAX_HISTORY_LENGTH - 1)) (buffer h u)
          ++ [Message "user" s]
    ∧ length p ≤ MAX_HISTORY_LENGTH + 1.
Proof.
  exists (prompt h u s). split; [|split].
  - rewrite get_ai_response_run. by destruct (complete _).
  - unfold prompt. by rewrite trimmed_snoc.
  - unfold prompt. cbn [length]. rewrite length_trimmed. lia.
Qed.

(** X2.  A successful exchange returns the text of the client and leaves the
    last [MAX_HISTORY_LENGTH - 1] stored messages followed by the user turn
    and the assistant turn. *)
Theorem successful_exchange complete h u s a :
  complete (prompt h u s) = Completed a →
  result_of (get_ai_response complete u s h) = Return a
  ∧ buffer (history_of (get_ai_response complete u s h)) u
    = drop (length (buffer h u) - (MAX_HISTORY_LENGTH - 1)) (buffer h u)
      ++ [Message "user" s; Message "assistant" a].
Proof.
  intros Hok. rewrite get_ai_response_run, Hok.
  unfold result_of, history_of; cbn [fst snd]. split; [done|].
  by rewrite buffer_insert_eq, trimmed_snoc, <- (assoc_L (++)).
Qed.

Lemma successful_exchange_witness :
  echo (prompt (after_exchanges 3) 7 "more") = Completed "ok"
  ∧ result_of (get_ai_response echo 7 "more" (after_exchanges 3)) = Return "ok".
Proof.
  split; [reflexivity|].
  apply (successful_exchange echo (after_exchanges 3) 7 "more" "ok"). reflexivity.
Defined.

(** X3.  A failed exchange cannot be seen afterwards: the next call of
    [get_ai_response] for the same user sends the same request, returns the
    same text and leaves the same dictionary as if the failed call had not
    been made, whatever the buffer held. *)
Theorem failed_exchange_invisible complete complete' h u s s' d :
  complete (prompt h u s) = Failed d →
  get_ai_response complete' u s' (history_of (get_ai_response complete u s h))
  = get_ai_response complete' u s' h.
Proof.
  intros Hfail. rewrite (get_ai_response_run complete), Hfail.
  unfold history_of; cbn [fst snd]. rewrite !(get_ai_response_run complete').
  unfold prompt. rewrite buffer_insert_eq, removelast_trimmed_snoc, trimmed_recent.
  destruct (complete' _); by rewrite insert_insert_eq.
Qed.

Lemma failed_exchange_invisible_witness :
  failing (prompt (after_exchanges 11) 7 "lost") = Failed "timeout"
  ∧ get_ai_response echo 7 "again"
      (history_of (get_ai_response failing 7 "lost" (after_exchanges 11)))
    = get_ai_response echo 7 "again" (after_exchanges 11).
Proof.
  split; [reflexivity|].
  apply (failed_exchange_invisible failing echo (after_exchanges 11) 7 "lost" "again"
           "timeout").
  reflexivity.
Defined.

(** X4.  After [reset_conversation] the user's buffer is empty, a second reset
    changes nothing more, and the next request of that user carries the
    system prompt and the new message only. *)
Theorem reset_forgets complete u s h :
  buffer (history_of (reset_conversation u h)) u = []
  ∧ reset_conversation u (history_of (reset_conversation u h)) = reset_conversation u h
  ∧ trace_of (get_ai_response complete u s (history_of (reset_conversation u h)))
    = [ApiCall [Message "system" SYSTEM_PROMPT; Message "user" s]].
Proof.
  rewrite !reset_conversation_run. unfold history_of; cbn [fst snd].
  split; [by rewrite buffer_insert_eq|]. split; [by rewrite insert_insert_eq|].
  rewrite get_ai_response_run. unfold prompt. rewrite buffer_insert_eq.
  by destruct (complete _).
Qed.

End exchanges.

(** ** Routes of the dispatcher *)

Section routes.
Implicit Types (h : gmap Z (list message)) (m : discord_message).

Lemma on_message_self complete bot_user_id m h :
  author_is_bot_user m = true →
  on_message complete bot_user_id m h = (Return (), h, []).
Proof. intros H. unfold on_message. by rewrite H. Qed.

Lemma on_message_not_answered complete bot_user_id m h :
  author_is_bot_user m = false →
  Py.startswith command_prefix (text m) = false →
  (derive_user_message bot_user_id m).1 && Py.truthy (derive_user_message bot_user_id m).2
    = false →
  on_message complete bot_user_id m h = (Return (), h, []).
Proof.
  intros Hself Hprefix Hno. unfold on_message. rewrite Hself. unfold bind at 1.
  rewrite process_commands_plain, Hprefix by done.
  destruct (derive_user_message bot_user_id m) as [should_respond user_message].
  cbn [fst snd] in Hno. by rewrite Hno.
Qed.

(** What an event can do to the dictionary: nothing, empty the buffer of
    its author, or what [get_ai_response] does for its author. *)
Lemma on_message_history complete bot_user_id m h :
  result_of (on_message complete bot_user_id m h) = Return ()
  ∧ (history_of (on_message complete bot_user_id m h) = h
     ∨ history_of (on_message complete bot_user_id m h) = <[author_id m := []]> h
     ∨ ∃ user_message,
         history_of (on_message complete bot_user_id m h)
         = history_of (get_ai_response complete (author_id m) user_message h)).
Proof.
  destruct (author_is_bot_user m) eqn:Hself.
  { rewrite on_message_self by done. split; [done|by left]. }
  destruct (Py.startswith command_prefix (text m)) eqn:Hprefix.
  { rewrite on_message_command by done.
    destruct (process_commands_cases m h) as [E|[[_ E]|[_ E]]]; rewrite E;
      (split; [done|]); [by left | by right; left | by left]. }
  destruct ((derive_user_message bot_user_id m).1
            && Py.truthy (derive_user_message bot_user_id m).2) eqn:Hyes.
  - apply andb_true_iff in Hyes as [Hr Ht].
    destruct (derive_user_message bot_user_id m) as [r um] eqn:Hd.
    cbn [fst snd] in Hr, Ht. subst r.
    destruct (on_message_respond complete bot_user_id m h um)
      as (response & h' & Hget & Hrun & _); [done..|].
    rewrite Hrun. split; [done|]. right; right. exists um. by rewrite Hget.
  - rewrite on_message_not_answered by done. split; [done|by left].
Qed.

Lemma run_cons bot_user_id complete m rest h :
  run bot_user_id ((complete, m) :: rest) h
  = let r := run bot_user_id rest (history_of (on_message complete bot_user_id m h)) in
    (r.1.1, r.1.2, trace_of (on_message complete bot_user_id m h) ++ r.2).
Proof.
  cbn [run]. unfold bind.
  destruct (on_message_history complete bot_user_id m h) as [Hr _].
  destruct (on_message complete bot_user_id m h) as [[r1 h1] t1].
  unfold result_of in Hr; cbn [fst snd] in Hr. subst r1.
  unfold history_of, trace_of; cbn [fst snd].
  by destruct (run bot_user_id rest h1) as [[r2 h2] t2].
Qed.

(** A property of all buffers that every event keeps is kept by a run,
    which never raises. *)
Lemma run_invariant (P : gmap Z (list message) → Prop) bot_user_id events h :
  (∀ complete m h', P h' → P (history_of (on_message complete bot_user_id m h'))) →
  P h →
  result_of (run bot_user_id events h) = Return ()
  ∧ P (history_of (run bot_user_id events h)).
Proof.
  intros Hstep. revert h. induction events as [|[complete m] rest IH]; intros h HP.
  { by split. }
  rewrite run_cons. cbn zeta. unfold result_of, history_of in *; cbn [fst snd].
  apply IH, Hstep, HP.
Qed.

(** X5.  An event leaves the entry of every user other than its author as it
    was, on every route. *)
Theorem on_message_other_users complete bot_user_id m h v :
  author_id m ≠ v →
  history_of (on_message complete bot_user_id m h) !! v = h !! v.
Proof.
  intros Hne.
  destruct (on_message_history complete bot_user_id m h) as [_ [E|[E|[um E]]]];
    rewrite E; [done | by rewrite lookup_insert_ne |].
  rewrite get_ai_response_run.
  destruct (complete _); unfold history_of; cbn [fst snd]; by rewrite lookup_insert_ne.
Qed.

Lemma on_message_other_users_witness :
  author_id (dm 7 "hello") ≠ 8%Z
  ∧ history_of (on_message echo 123 (dm 7 "hello") (after_exchanges 2)) !! 8%Z
    = after_exchanges 2 !! 8%Z.
Proof.
  split; [discriminate|].
  apply (on_message_other_users echo 123 (dm 7 "hello") (after_exchanges 2) 8).
  discriminate.
Defined.

(** X6.  In every run whose completion calls each return a text or fail,
    and that starts with at most [MAX_HISTORY_LENGTH + 1] messages in each
    buffer, every buffer still holds at most [MAX_HISTORY_LENGTH + 1]
    messages at the end. *)
Theorem run_keeps_bound bot_user_id events h :
  (∀ u, length (buffer h u) ≤ MAX_HISTORY_LENGTH + 1) →
  ∀ u, length (buffer (history_of (run bot_user_id events h)) u)
       ≤ MAX_HISTORY_LENGTH + 1.
Proof.
  intros H0.
  apply (run_invariant (λ h', ∀ u, length (buffer h' u) ≤ MAX_HISTORY_LENGTH + 1));
    [|done].
  intros complete m h' Hh' u.
  destruct (on_message_history complete bot_user_id m h') as [_ [E|[E|[um E]]]];
    rewrite E; [done | |].
  - destruct (decide (author_id m = u)) as [->|Hne].
    + rewrite buffer_insert_eq. cbn [length]. lia.
    + by rewrite buffer_insert_ne.
  - destruct (decide (author_id m = u)) as [<-|Hne].
    + apply get_ai_response_length.
    + rewrite get_ai_response_run.
      destruct (complete _); unfold history_of; cbn [fst snd];
        by rewrite buffer_insert_ne.
Qed.

Lemma run_keeps_bound_witness :
  (∀ u, length (buffer ∅ u) ≤ MAX_HISTORY_LENGTH + 1)
  ∧ length (buffer (history_of
              (run 123 (replicate 12 (echo, dm 7 "hi") ++ [(failing, dm 8 "x")]) ∅)) 7)
    ≤ MAX_HISTORY_LENGTH + 1.
Proof.
  assert (∀ u, length (buffer ∅ u) ≤ MAX_HISTORY_LENGTH + 1) as H0.
  { intros u. unfold buffer. rewrite lookup_empty. cbn [default length]. lia. }
  split; [exact H0|].
  apply (run_keeps_bound 123 (replicate 12 (echo, dm 7 "hi") ++ [(failing, dm 8 "x")]) ∅ H0).
Defined.

Lemma alternates_drop b l k :
  alternates b l = true → ∃ b', alternates b' (drop k l) = true.
Proof.
  revert b l. induction k as [|k IH]; intros b l H; [by exists b|].
  destruct l as [|x l]; [by exists b|].
  cbn [alternates] in H. apply andb_true_iff in H as [_ H]. by apply (IH _ _ H).
Qed.

Lemma alternates_exchange b l s a :
  alternates b l = true →
  alternates b (l ++ [Message "user" s; Message "assistant" a]) = true.
Proof.
  revert b. induction l as [|x l IH]; intros b H.
  - cbn [alternates] in H. subst b. done.
  - cbn [alternates app] in *. apply andb_true_iff in H as [Hx H].
    rewrite Hx. by apply IH.
Qed.

Lemma exchanges_only_iff l : exchanges_only l = true ↔ ∃ b, alternates b l = true.
Proof.
  unfold exchanges_only. rewrite orb_true_iff. split.
  - intros [H|H]; eauto.
  - intros [[] H]; auto.
Qed.

Lemma get_ai_response_exchanges_only complete h u s :
  exchanges_only (buffer h u) = true →
  exchanges_only (buffer (history_of (get_ai_response complete u s h)) u) = true.
Proof.
  rewrite !exchanges_only_iff. intros [b Hb].
  rewrite get_ai_response_run.
  destruct (complete _) as [a|d]; unfold history_of; cbn [fst snd];
    rewrite buffer_insert_eq.
  - rewrite trimmed_snoc, <- (assoc_L (++)).
    rewrite <- drop_app_le by lia.
    apply (alternates_drop b). by apply alternates_exchange.
  - rewrite removelast_trimmed_snoc. by apply (alternates_drop b).
Qed.

(** X7.  In every run that starts from buffers made of whole exchanges, every
    buffer at the end still alternates between user and assistant turns and
    ends, if it is not empty, with an assistant turn: no user turn is left
    without its answer and no system message is stored. *)
Theorem run_keeps_exchanges bot_user_id events h :
  (∀ u, exchanges_only (buffer h u) = true) →
  ∀ u, exchanges_only (buffer (history_of (run bot_user_id events h)) u) = true.
Proof.
  intros H0.
  apply (run_invariant (λ h', ∀ u, exchanges_only (buffer h' u) = true)); [|done].
  intros complete m h' Hh' u.
  destruct (on_message_history complete bot_user_id m h') as [_ [E|[E|[um E]]]];
    rewrite E; [done | |].
  - destruct (decide (author_id m = u)) as [->|Hne].
    + by rewrite buffer_insert_eq.
    + by rewrite buffer_insert_ne.
  - destruct (decide (author_id m = u)) as [<-|Hne].
    + by apply get_ai_response_exchanges_only.
    + rewrite get_ai_response_run.
      destruct (complete _); unfold history_of; cbn [fst snd];
        by rewrite buffer_insert_ne.
Qed.

Lemma run_keeps_exchanges_witness :
  (∀ u, exchanges_only (buffer ∅ u) = true)
  ∧ exchanges_only
      (buffer (history_of (run 123 (replicate 12 (echo, dm 7 "hi")
                                    ++ [(failing, dm 7 "x")]) ∅)) 7) = true.
Proof.
  assert (∀ u, exchanges_only (buffer ∅ u) = true) as H0.
  { intros u. unfold buffer. rewrite lookup_empty. reflexivity. }
  split; [exact H0|].
  apply (run_keeps_exchanges 123 (replicate 12 (echo, dm 7 "hi") ++ [(failing, dm 7 "x")])
           ∅ H0).
Defined.

End routes.

(** ** Which events are answered *)

Section answers.
Implicit Types (h : gmap Z (list message)) (m : discord_message) (s : string).

Lemma mention_token_cons bot_user_id :
  "<@!" +:+ Py.format_int bot_user_id +:+ ">"
  = String "<" ("@!" +:+ Py.format_int bot_user_id +:+ ">").
Proof. done. Qed.

Lemma derive_empty_text bot_user_id m :
  text m = "" → Py.truthy (derive_user_message bot_user_id m).2 = false.
Proof.
  intros E. unfold derive_user_message. rewrite E.
  destruct (in_dm_channel m); [done|]. destruct (bot_mentioned m); [|done].
  by rewrite mention_token_cons.
Qed.

(** X8.  Events that are not answered: a message of the bot itself, even one
    that starts with "!"; a message on a shared channel that is neither a
    command nor a mention of the bot; a message without text.  Nothing is
    sent, no request is made and the dictionary stays as it is. *)
Theorem unaddressed_events_ignored complete bot_user_id m h :
  author_is_bot_user m = true
  ∨ (Py.startswith command_prefix (text m) = false
     ∧ in_dm_channel m = false ∧ bot_mentioned m = false)
  ∨ text m = "" →
  on_message complete bot_user_id m h = (Return (), h, []).
Proof.
  intros [Hself|Hcase]; [by apply on_message_self|].
  destruct (author_is_bot_user m) eqn:Hself; [by apply on_message_self|].
  destruct Hcase as [(Hprefix & Hdm & Hmention)|Hempty].
  - apply on_message_not_answered; [done..|].
    unfold derive_user_message. by rewrite Hdm, Hmention.
  - apply on_message_not_answered; [done| by rewrite Hempty |].
    rewrite derive_empty_text by done. apply andb_false_r.
Qed.

Lemma unaddressed_events_ignored_witness :
  (author_is_bot_user (DiscordMessage 9 false false "hello all" false false) = true
   ∨ (Py.startswith command_prefix
        (text (DiscordMessage 9 false false "hello all" false false)) = false
      ∧ in_dm_channel (DiscordMessage 9 false false "hello all" false false) = false
      ∧ bot_mentioned (DiscordMessage 9 false false "hello all" false false) = false)
   ∨ text (DiscordMessage 9 false false "hello all" false false) = "")
  ∧ on_message echo 123 (DiscordMessage 9 false false "hello all" false false)
      (after_exchanges 2)
    = (Return (), after_exchanges 2, []).
Proof.
  assert (author_is_bot_user (DiscordMessage 9 false false "hello all" false false) = true
   ∨ (Py.startswith command_prefix
        (text (DiscordMessage 9 false false "hello all" false false)) = false
      ∧ in_dm_channel (DiscordMessage 9 false false "hello all" false false) = false
      ∧ bot_mentioned (DiscordMessage 9 false false "hello all" false false) = false)
   ∨ text (DiscordMessage 9 false false "hello all" false false) = "") as H.
  { right. left. repeat split; reflexivity. }
  split; [exact H|].
  apply (unaddressed_events_ignored echo 123
           (DiscordMessage 9 false false "hello all" false false) (after_exchanges 2) H).
Defined.

(** X9.  A direct message with a text that does not start with "!" is answered,
    and its text is taken as it is, without stripping: the typing indicator
    is shown, one request is made whose user message is the whole text, and
    the fragments sent afterwards join to the text that [get_ai_response]
    returned. *)
Theorem direct_message_answered complete bot_user_id m h :
  author_is_bot_user m = false →
  in_dm_channel m = true →
  Py.startswith command_prefix (text m) = false →
  text m ≠ "" →
  ∃ response h',
    get_ai_response complete (author_id m) (text m) h
      = (Return response, h', [ApiCall (prompt h (author_id m) (text m))])
    ∧ on_message complete bot_user_id m h
      = (Return (), h',
         Typing :: ApiCall (prompt h (author_id m) (text m))
           :: trace_of (send_response response h'))
    ∧ Py.join (fragments (trace_of (on_message complete bot_user_id m h))) = response.
Proof.
  intros Hself Hdm Hprefix Hne.
  apply on_message_respond; [done..| |].
  - unfold derive_user_message. by rewrite Hdm.
  - by destruct (text m).
Qed.

Lemma direct_message_answered_witness :
  author_is_bot_user (dm 7 "  hi  ") = false
  ∧ in_dm_channel (dm 7 "  hi  ") = true
  ∧ Py.startswith command_prefix (text (dm 7 "  hi  ")) = false
  ∧ text (dm 7 "  hi  ") ≠ ""
  ∧ ∃ response h',
      get_ai_response echo 7 "  hi  " ∅
      = (Return response, h', [ApiCall (prompt ∅ 7 "  hi  ")]).
Proof.
  split; [reflexivity|]. split; [reflexivity|]. split; [reflexivity|].
  split; [discriminate|].
  destruct (direct_message_answered echo 123 (dm 7 "  hi  ") ∅)
    as (response & h' & Hget & _); [reflexivity | reflexivity | reflexivity | discriminate |].
  exists response, h'. exact Hget.
Defined.

Lemma lstrip_no_leading_space s : starts_with_space (Py.lstrip s) = false.
Proof.
  induction s as [|c s IH]; [done|]. cbn [Py.lstrip].
  destruct (Py.isspace c) eqn:E; [done|]. cbn [starts_with_space]. done.
Qed.

Lemma rstrip_no_trailing_space s : ends_with_space (Py.rstrip s) = false.
Proof.
  induction s as [|c s IH]; [done|]. cbn [Py.rstrip].
  destruct (Py.rstrip s) as [|c' r].
  - destruct (Py.isspace c) eqn:E; [done|]. by cbn [ends_with_space].
  - by cbn [ends_with_space].
Qed.

Lemma rstrip_keeps_head s :
  starts_with_space s = false → starts_with_space (Py.rstrip s) = false.
Proof.
  destruct s as [|c s]; [done|]. cbn [starts_with_space Py.rstrip]. intros E.
  destruct (Py.rstrip s); [by rewrite E|done].
Qed.

(** X10.  On a shared channel where the bot is mentioned, the event is
    marked for an answer and the user message derived from it neither
    begins nor ends with a whitespace character. *)
Theorem mention_message_is_stripped bot_user_id m :
  in_dm_channel m = false →
  bot_mentioned m = true →
  (derive_user_message bot_user_id m).1 = true
  ∧ starts_with_space (derive_user_message bot_user_id m).2 = false
  ∧ ends_with_space (derive_user_message bot_user_id m).2 = false.
Proof.
  intros Hdm Hmention. unfold derive_user_message. rewrite Hdm, Hmention.
  cbn [fst snd]. split; [done|]. unfold Py.strip. split.
  - apply rstrip_keeps_head, lstrip_no_leading_space.
  - apply rstrip_no_trailing_space.
Qed.

Lemma mention_message_is_stripped_witness :
  in_dm_channel (mention 7 (String (ascii_of_nat 160) " <@!123>  what is a monad? ")) = false
  ∧ bot_mentioned (mention 7 (String (ascii_of_nat 160) " <@!123>  what is a monad? ")) = true
  ∧ derive_user_message 123
      (mention 7 (String (ascii_of_nat 160) " <@!123>  what is a monad? "))
    = (true, "what is a monad?")
  ∧ starts_with_space "what is a monad?" = false.
Proof.
  split; [reflexivity|]. split; [reflexivity|].
  assert (derive_user_message 123
            (mention 7 (String (ascii_of_nat 160) " <@!123>  what is a monad? "))
          = (true, "what is a monad?")) as E by (vm_compute; reflexivity).
  split; [exact E|].
  destruct (mention_message_is_stripped 123
              (mention 7 (String (ascii_of_nat 160) " <@!123>  what is a monad? ")))
    as (_ & Hs & _); [reflexivity | reflexivity |].
  rewrite E in Hs. exact Hs.
Defined.

Lemma startswith_refl s : Py.startswith s s = true.
Proof. induction s as [|c s IH]; [done|]. cbn [Py.startswith]. by rewrite decide_True. Qed.

Lemma replace_from_short k old new s :
  String.length s ≤ k → Py.replace_from k old new s = "".
Proof.
  revert k. induction s as [|c s IH]; intros k H; [done|].
  destruct k as [|k]; [cbn in H; lia|]. cbn [Py.replace_from]. apply IH.
  cbn [String.length] in H. lia.
Qed.

Lemma replace_whole c old : Py.replace (String c old) "" (String c old) = "".
Proof.
  cbn [Py.replace Py.replace_from]. rewrite startswith_refl.
  rewrite replace_from_short; [done|]. cbn [String.length]. lia.
Qed.

(** X11.  A message on a shared channel whose text is just the nickname mention
    of the bot is not answered: what is left of it is empty. *)
Theorem bare_mention_ignored complete bot_user_id m h :
  author_is_bot_user m = false →
  in_dm_channel m = false →
  bot_mentioned m = true →
  text m = "<@!" +:+ Py.format_int bot_user_id +:+ ">" →
  on_message complete bot_user_id m h = (Return (), h, []).
Proof.
  intros Hself Hdm Hmention Htext.
  apply on_message_not_answered; [done | by rewrite Htext, mention_token_cons |].
  unfold derive_user_message. rewrite Hdm, Hmention, Htext. cbn [fst snd andb].
  by rewrite mention_token_cons, replace_whole.
Qed.

Lemma bare_mention_ignored_witness :
  author_is_bot_user (mention 7 "<@!123>") = false
  ∧ in_dm_channel (mention 7 "<@!123>") = false
  ∧ bot_mentioned (mention 7 "<@!123>") = true
  ∧ text (mention 7 "<@!123>") = "<@!" +:+ Py.format_int 123 +:+ ">"
  ∧ on_message failing 123 (mention 7 "<@!123>") (after_exchanges 1)
    = (Return (), after_exchanges 1, []).
Proof.
  split; [reflexivity|]. split; [reflexivity|]. split; [reflexivity|].
  split; [vm_compute; reflexivity|].
  apply (bare_mention_ignored failing 123 (mention 7 "<@!123>") (after_exchanges 1));
    [reflexivity | reflexivity | reflexivity | vm_compute; reflexivity].
Defined.

End answers.

(** ** Commands, fragments and start-up *)

Section commands_and_fragments.
Implicit Types (h : gmap Z (list message)) (m : discord_message) (s : string).

(** X12.  The reset command: for a message of a user account that starts with
    "!" and names [reset], the buffer of the author is emptied and the
    confirmation is the only thing sent; no request is made. *)
Theorem reset_command_empties_author complete bot_user_id m h :
  author_is_bot_user m = false →
  author_is_bot m = false →
  Py.startswith command_prefix (text m) = true →
  command_name m = "reset" →
  on_message complete bot_user_id m h
    = (Return (), <[author_id m := []]> h, [Reply reset_confirmation])
  ∧ buffer (history_of (on_message complete bot_user_id m h)) (author_id m) = [].
Proof.
  intros Hself Hbot Hprefix Hname.
  rewrite on_message_command by done.
  unfold process_commands. rewrite Hbot, Hprefix, decide_True by done.
  unfold reset_command, bind. rewrite reset_conversation_run. unfold emit.
  split; [done|]. unfold history_of; cbn [fst snd]. by rewrite buffer_insert_eq.
Qed.

Lemma reset_command_empties_author_witness :
  author_is_bot_user (dm 7 "!reset please") = false
  ∧ author_is_bot (dm 7 "!reset please") = false
  ∧ Py.startswith command_prefix (text (dm 7 "!reset please")) = true
  ∧ command_name (dm 7 "!reset please") = "reset"
  ∧ buffer (history_of (on_message echo 123 (dm 7 "!reset please") (after_exchanges 4))) 7
    = [].
Proof.
  split; [reflexivity|]. split; [reflexivity|]. split; [reflexivity|].
  split; [vm_compute; reflexivity|].
  apply (reset_command_empties_author echo 123 (dm 7 "!reset please") (after_exchanges 4));
    [reflexivity | reflexivity | reflexivity | vm_compute; reflexivity].
Defined.

(** X13.  The help command sends the embed and nothing else; it reads and writes
    no history. *)
Theorem help_command_sends_embed complete bot_user_id m h :
  author_is_bot_user m = false →
  author_is_bot m = false →
  Py.startswith command_prefix (text m) = true →
  command_name m = "help" →
  on_message complete bot_user_id m h = (Return (), h, [ReplyEmbed]).
Proof.
  intros Hself Hbot Hprefix Hname.
  rewrite on_message_command by done.
  unfold process_commands. rewrite Hbot, Hprefix, Hname.
  rewrite decide_False by done. by rewrite decide_True.
Qed.

Lemma help_command_sends_embed_witness :
  author_is_bot_user (mention 7 "!help") = false
  ∧ author_is_bot (mention 7 "!help") = false
  ∧ Py.startswith command_prefix (text (mention 7 "!help")) = true
  ∧ command_name (mention 7 "!help") = "help"
  ∧ on_message echo 123 (mention 7 "!help") (after_exchanges 2)
    = (Return (), after_exchanges 2, [ReplyEmbed]).
Proof.
  split; [reflexivity|]. split; [reflexivity|]. split; [reflexivity|].
  split; [vm_compute; reflexivity|].
  apply (help_command_sends_embed echo 123 (mention 7 "!help") (after_exchanges 2));
    [reflexivity | reflexivity | reflexivity | vm_compute; reflexivity].
Defined.

Lemma fmap_seq_const {A} (f : nat → A) (x : A) j q :
  (∀ k, j ≤ k < j + q → f k = x) → f <$> seq j q = replicate q x.
Proof.
  revert j. induction q as [|q IH]; intros j H; [done|].
  cbn [seq replicate]. rewrite fmap_cons, H by lia. f_equal. apply IH.
  intros k Hk. apply H. lia.
Qed.

(** The sizes of consecutive slices of width [c]: full ones, then the
    remainder if there is one. *)
Lemma slice_sizes c s :
  0 < c →
  String.length <$> ((λ k, Py.slice (k * c) (k * c + c) s)
                       <$> seq 0 ((String.length s + (c - 1)) / c))
  = replicate (String.length s / c) c
    ++ (if String.length s `mod` c =? 0 then [] else [String.length s `mod` c]).
Proof.
  intros Hc. set (n := String.length s).
  pose proof (Nat.div_mod_eq n c) as Hdm.
  pose proof (Nat.mod_upper_bound n c) as Hr.
  pose proof (ceil_div_bounds c n Hc) as Hm.
  set (q := n / c) in *. set (r := n `mod` c) in *.
  set (count := (n + (c - 1)) / c) in *.
  rewrite <- list_fmap_compose.
  assert (count = q + (if r =? 0 then 0 else 1)) as ->.
  { destruct (Nat.eqb_spec r 0); nia. }
  rewrite seq_app, fmap_app. f_equal.
  - apply fmap_seq_const. intros k Hk. unfold compose.
    rewrite length_slice. fold n. nia.
  - destruct (Nat.eqb_spec r 0) as [E|E]; [done|].
    cbn [seq fmap list_fmap]. unfold compose. rewrite length_slice. fold n.
    f_equal. nia.
Qed.

Lemma fragments_send_response_long response h :
  2000 < String.length response →
  fragments (trace_of (send_response response h)) = chunks response.
Proof.
  intros H. rewrite send_response_long by done.
  pose proof (chunks_nonempty response) as Hne.
  destruct (chunks response) as [|first rest]; [exfalso; apply Hne; [lia|done]|].
  rewrite chunk_event_enumerate. unfold trace_of; cbn [snd].
  change (fragments (Reply first :: (ChannelSend <$> rest)))
    with (first :: fragments (ChannelSend <$> rest)).
  by rewrite fragments_ChannelSend.
Qed.

(** X14.  The sizes of the fragments of a non-empty reply of [n] characters:
    [n / 2000] fragments of 2000 characters, followed by one of
    [n mod 2000] characters when that is not zero; so no fragment is empty
    or longer than 2000, and a reply of exactly 2000 characters is one
    fragment. *)
Theorem fragment_sizes response h :
  0 < String.length response →
  String.length <$> fragments (trace_of (send_response response h))
  = replicate (String.length response / 2000) 2000
    ++ (if String.length response `mod` 2000 =? 0 then []
        else [String.length response `mod` 2000]).
Proof.
  intros Hpos.
  destruct (Nat.le_gt_cases (String.length response) 2000) as [Hle|Hgt].
  - rewrite send_response_short by done.
    change (String.length <$> fragments _) with [String.length response].
    destruct (decide (String.length response = 2000)) as [E|E].
    + rewrite E. by vm_compute.
    + rewrite Nat.div_small, Nat.mod_small by lia.
      by destruct (Nat.eqb_spec (String.length response) 0); [lia|].
  - rewrite fragments_send_response_long by done.
    unfold chunks. apply slice_sizes. lia.
Qed.

Lemma fragment_sizes_witness :
  0 < String.length long_reply
  ∧ String.length <$> fragments (trace_of (send_response long_reply ∅))
    = [2000; 2000; 500].
Proof.
  assert (0 < String.length long_reply) as H by (vm_compute; lia).
  split; [exact H|].
  assert (String.length long_reply = 4500) as E by (vm_compute; reflexivity).
  pose proof (fragment_sizes long_reply ∅ H) as F. rewrite E in F.
  exact F.
Defined.

(** An empty reply is still sent, as one empty fragment. *)
Lemma empty_reply_is_sent h :
  send_response "" h = (Return (), h, [Reply ""]).
Proof. done. Qed.

(** X15.  The module goes past its start-up checks exactly when both tokens are
    set to non-empty strings; when the Discord token is missing or empty,
    the error names it, whatever the other one is. *)
Theorem startup_needs_both_tokens discord_token openai_api_key :
  (validate_tokens discord_token openai_api_key = Started
   ↔ (∃ s, discord_token = Some s ∧ s ≠ "")
     ∧ (∃ s, openai_api_key = Some s ∧ s ≠ ""))
  ∧ (env_truthy discord_token = false →
     validate_tokens discord_token openai_api_key
     = ValueError "[ERROR] DISCORD_TOKEN not found! Please add it to your .env file.").
Proof.
  split.
  - unfold validate_tokens.
    destruct discord_token as [[|c s]|], openai_api_key as [[|c' s']|]; cbn;
      (split; [try discriminate; intros _; split; eexists; (split; [reflexivity|done])
              | intros [(x & Hx & Hne) (y & Hy & Hne')]; by simplify_eq]).
  - intros H. unfold validate_tokens. by rewrite H.
Qed.

Lemma startup_needs_both_tokens_witness :
  env_truthy (Some "") = false
  ∧ validate_tokens (Some "") (Some "sk-1")
    = ValueError "[ERROR] DISCORD_TOKEN not found! Please add it to your .env file.".
Proof.
  split; [reflexivity|].
  apply (startup_needs_both_tokens (Some "") (Some "sk-1")). reflexivity.
Defined.

End commands_and_fragments.

(** ** What one event can send *)

Section traces.
Implicit Types (h : gmap Z (list message)) (m : discord_message).

Lemma send_response_trace response h :
  ∃ first rest,
    trace_of (send_response response h) = Reply first :: (ChannelSend <$> rest).
Proof.
  destruct (Nat.le_gt_cases (String.length response) 2000) as [Hle|Hgt].
  - exists response, []. by rewrite send_response_short.
  - rewrite send_response_long by done.
    pose proof (chunks_nonempty response) as Hne.
    destruct (chunks response) as [|first rest]; [exfalso; apply Hne; [lia|done]|].
    exists first, rest. by rewrite chunk_event_enumerate.
Qed.

(** X16.  All that the handling of one event can send, on every route: nothing;
    the confirmation of a reset; the help embed; or the typing indicator,
    one completion request, a reply to the message and then plain messages
    to the channel.  So an event causes at most one request, and whatever
    is sent starts with a reply to the message. *)
Theorem on_message_trace_shape complete bot_user_id m h :
  trace_of (on_message complete bot_user_id m h) = []
  ∨ trace_of (on_message complete bot_user_id m h) = [Reply reset_confirmation]
  ∨ trace_of (on_message complete bot_user_id m h) = [ReplyEmbed]
  ∨ ∃ user_message first rest,
      trace_of (on_message complete bot_user_id m h)
      = Typing :: ApiCall (prompt h (author_id m) user_message)
          :: Reply first :: (ChannelSend <$> rest).
Proof.
  destruct (author_is_bot_user m) eqn:Hself.
  { rewrite on_message_self by done. by left. }
  destruct (Py.startswith command_prefix (text m)) eqn:Hprefix.
  { rewrite on_message_command by done.
    destruct (process_commands_cases m h) as [E|[[_ E]|[_ E]]]; rewrite E;
      [by left | by right; left | by right; right; left]. }
  destruct ((derive_user_message bot_user_id m).1
            && Py.truthy (derive_user_message bot_user_id m).2) eqn:Hyes.
  - apply andb_true_iff in Hyes as [Hr Ht].
    destruct (derive_user_message bot_user_id m) as [r um] eqn:Hd.
    cbn [fst snd] in Hr, Ht. subst r.
    destruct (on_message_respond complete bot_user_id m h um)
      as (response & h' & Hget & Hrun & _); [done..|].
    destruct (send_response_trace response h') as (first & rest & Htrace).
    right; right; right. exists um, first, rest.
    rewrite Hrun. unfold trace_of at 1; cbn [snd]. by rewrite Htrace.
  - rewrite on_message_not_answered by done. by left.
Qed.

End traces.
